(** * Gaia-X credentials CLI: the orchestration layer of [src/index.js]

    The file embeds [signCredentials], [actionCredentials], [actionVP] and
    the commander table [program] of [src/index.js].  The JavaScript is
    straight-line [async] code that awaits calls into collaborators
    ([fs], [axios], the builders of [participant.js] and [service.js],
    [writeFile] of [utils.js]) and talks to [logger].  It is embedded as a
    program tree over those calls; running a tree against an arbitrary
    environment yields the value or the thrown error, the final state of
    the environment and the trace of the calls made, in order. *)

From Stdlib Require Import ZArith.
From stdpp Require Import base strings list gmap pretty.

Open Scope string_scope.
Open Scope list_scope.

(** ** JavaScript values *)

(** JSON documents.  Objects keep their keys in insertion order, as a
    JavaScript object does, so they are association lists.  Only integral
    numbers are represented. *)
#[local] Set Warnings "-register-all".
Inductive Json : Type :=
| JNull
| JBool (b : bool)
| JNum (n : Z)
| JStr (s : string)
| JArr (items : list Json)
| JObj (fields : list (string * Json)).

(** JavaScript truthiness, as used by [&&] and [||]. *)
Definition truthy (v : Json) : bool :=
  match v with
  | JNull => false
  | JBool b => b
  | JNum n => negb (n =? 0)%Z
  | JStr s => negb (String.eqb s EmptyString)
  | JArr _ => true
  | JObj _ => true
  end.

(** Property access [o[key]] on a document: the first binding of [key]. *)
Fixpoint assoc (key : string) (fields : list (string * Json)) : option Json :=
  match fields with
  | [] => None
  | (k, v) :: rest => if String.eqb k key then Some v else assoc key rest
  end.

Definition get (key : string) (v : Json) : option Json :=
  match v with
  | JObj fields => assoc key fields
  | _ => None
  end.

(** The response object of axios: [res.status], [res.data]. *)
Record AxiosResponse : Type := { status : Z; data : Json }.

(** A thrown error object: [err.name], [err.message] and, on the errors
    axios raises for a non-success answer, [err.response]. *)
Record Exn : Type := {
  name : string;
  message : string;
  response : option AxiosResponse
}.

(** [new Error(msg)] *)
Definition newError (msg : string) : Exn :=
  {| name := "Error"; message := msg; response := None |}.

(** A value handed to [logger] or to [JSON.stringify]. *)
Inductive JsVal : Type :=
| VJson (j : Json)
| VExn (e : Exn).

Definition str (s : string) : JsVal := VJson (JStr s).

(** The result of awaiting a call: a value, or a thrown error. *)
Inductive Outcome (A : Type) : Type :=
| Ok (a : A)
| Thrown (e : Exn).
Arguments Ok {A} a.
Arguments Thrown {A} e.

Definition is_thrown {A} (o : Outcome A) : bool :=
  match o with Ok _ => false | Thrown _ => true end.

(** ** Configuration ([getConfig()] of [config.js]) *)

Record Config : Type := {
  didWebId : string;
  baseUrl : string;
  webserverDir : string;
  openAPISpec : string;
  urlAPICompliance : string;
  urlParticipant : string;
  urlTermsConditions : string;
  urlServiceOffering : string;
  pathParticipant : string;
  pathLRN : string;
  pathTermsConditions : string;
  pathServiceOffering : string;
  pathVerifiablePresentation : string
}.

(** ** Calls into collaborators *)

(** The argument object of [buildOpenAPIResources]. *)
Module OpenAPIResources.
Record args : Type := {
  openAPIUrl : string;
  didIssuer : string;
  participantUrl : string;
  virtResourceUrl : string;
  virtResourceWritePath : string;
  instVirtResourceUrl : string;
  instVirtResourceWritePath : string
}.
Record t : Type := {
  instantiatedVirtualResource : Json;
  virtualResource : Json
}.
End OpenAPIResources.

(** The argument object of [buildServiceOffering]. *)
Module ServiceOffering.
Record args : Type := {
  didIssuer : string;
  legalParticipantUrl : string;
  termsConditionsPath : string;
  termsConditionsUrl : string;
  serviceOfferingUrl : string;
  serviceOfferingWritePath : string;
  aggregatedResourceUrls : list string
}.
End ServiceOffering.

(** Every awaited call of [index.js], indexed by what it resolves to. *)
Inductive effect : Type -> Type :=
| FsReadFile (path : string) : effect string
| AxiosPost (url : string) (body : Json) : effect AxiosResponse
| UtilsWriteFile (path : string) (content : Json) : effect unit
| BuildParticipantVC : effect Json
| BuildLegalRegistrationNumberVC : effect Json
| BuildTermsConditionsVC : effect Json
| BuildOpenAPIResources (a : OpenAPIResources.args) : effect OpenAPIResources.t
| BuildServiceOffering (a : ServiceOffering.args) : effect Json
| WriteDIDFile : effect unit.

Inductive level : Type := info | debug | error.

(** ** Programs *)

(** A program either returns, throws, logs and goes on, or awaits a call
    and goes on with its outcome.  [logger] calls do not throw. *)
Inductive prog (A : Type) : Type :=
| Ret (a : A)
| Throw (e : Exn)
| Log (l : level) (v : JsVal) (k : prog A)
| Vis {X : Type} (c : effect X) (k : Outcome X -> prog A).
Arguments Ret {A} a.
Arguments Throw {A} e.
Arguments Log {A} l v k.
Arguments Vis {A X} c k.

Definition lift {A} (o : Outcome A) : prog A :=
  match o with
  | Ok a => Ret a
  | Thrown e => Throw e
  end.

(** [await c]: a rejected promise throws at the [await]. *)
Definition await {X} (c : effect X) : prog X := Vis c lift.

Definition logger (l : level) (v : JsVal) : prog unit := Log l v (Ret tt).

Fixpoint bind {A B} (p : prog A) (f : A -> prog B) : prog B :=
  match p with
  | Ret a => f a
  | Throw e => Throw e
  | Log l v k => Log l v (bind k f)
  | Vis c k => Vis c (fun o => bind (k o) f)
  end.

(** [try { p } catch (err) { h err }] *)
Fixpoint try_catch {A} (p : prog A) (h : Exn -> prog A) : prog A :=
  match p with
  | Ret a => Ret a
  | Throw e => h e
  | Log l v k => Log l v (try_catch k h)
  | Vis c k => Vis c (fun o => try_catch (k o) h)
  end.

#[global] Instance prog_ret : MRet prog := fun A a => Ret a.
#[global] Instance prog_bind : MBind prog := fun A B f p => bind p f.

(** ** Running a program *)

(** One observable step: a log line, or a call with its outcome. *)
Inductive entry : Type :=
| Logged (l : level) (v : JsVal)
| Called {X : Type} (c : effect X) (o : Outcome X).

(** The environment: how each call answers and what it does to the state
    of the outside world [W]; what a log line does to it. *)
Record Env (W : Type) : Type := {
  perform : forall X, effect X -> W -> Outcome X * W;
  record : level -> JsVal -> W -> W
}.
Arguments perform {W} _ {X} _ _.
Arguments record {W} _ _ _ _.

Record Run (A W : Type) : Type := {
  result : Outcome A;
  world : W;
  trace : list entry
}.
Arguments result {A W} _.
Arguments world {A W} _.
Arguments trace {A W} _.

Definition after {A W} (e : entry) (r : Run A W) : Run A W :=
  {| result := result r; world := world r; trace := e :: trace r |}.

Fixpoint run {A W} (env : Env W) (p : prog A) (w : W) : Run A W :=
  match p with
  | Ret a => {| result := Ok a; world := w; trace := [] |}
  | Throw e => {| result := Thrown e; world := w; trace := [] |}
  | Log l v k => after (Logged l v) (run env k (record env l v w))
  | Vis c k =>
      let r := perform env c w in
      after (Called c (fst r)) (run env (k (fst r)) (snd r))
  end.

(** ** Reading a trace *)

(** The requests posted with [axios.post]: endpoint and body, in order. *)
Definition post_of (e : entry) : option (string * Json) :=
  match e with
  | Called c _ =>
      match c with
      | AxiosPost url body => Some (url, body)
      | _ => None
      end
  | Logged _ _ => None
  end.

(** The paths read with [fs.readFile], in order. *)
Definition read_of (e : entry) : option string :=
  match e with
  | Called c _ =>
      match c with
      | FsReadFile path => Some path
      | _ => None
      end
  | Logged _ _ => None
  end.

(** The documents written with [writeFile]: path and content, in order. *)
Definition write_of (e : entry) : option (string * Json) :=
  match e with
  | Called c _ =>
      match c with
      | UtilsWriteFile path content => Some (path, content)
      | _ => None
      end
  | Logged _ _ => None
  end.

(** What each [fs.readFile] resolved to, in order. *)
Definition read_result_of (e : entry) : option (Outcome string) :=
  match e with
  | Called c o =>
      match c in effect X return Outcome X -> option (Outcome string) with
      | FsReadFile _ => fun o => Some o
      | _ => fun _ => None
      end o
  | Logged _ _ => None
  end.

(** What each [axios.post] resolved to, in order. *)
Definition answer_of (e : entry) : option (Outcome AxiosResponse) :=
  match e with
  | Called c o =>
      match c in effect X return Outcome X -> option (Outcome AxiosResponse) with
      | AxiosPost _ _ => fun o => Some o
      | _ => fun _ => None
      end o
  | Logged _ _ => None
  end.

(** The values handed to [logger.error], in order. *)
Definition error_of (e : entry) : option JsVal :=
  match e with
  | Logged error v => Some v
  | _ => None
  end.

Definition posts (t : list entry) : list (string * Json) := omap post_of t.
Definition reads (t : list entry) : list string := omap read_of t.
Definition writes (t : list entry) : list (string * Json) := omap write_of t.
Definition errors_logged (t : list entry) : list JsVal := omap error_of t.
Definition read_results (t : list entry) : list (Outcome string) := omap read_result_of t.
Definition post_answers (t : list entry) : list (Outcome AxiosResponse) := omap answer_of t.

(** The builder steps of the build workflow, with the arguments passed. *)
Inductive step : Type :=
| StepParticipant
| StepLRN
| StepTermsConditions
| StepResources (a : OpenAPIResources.args)
| StepServiceOffering (a : ServiceOffering.args).

Definition step_of (e : entry) : option step :=
  match e with
  | Called c _ =>
      match c with
      | BuildParticipantVC => Some StepParticipant
      | BuildLegalRegistrationNumberVC => Some StepLRN
      | BuildTermsConditionsVC => Some StepTermsConditions
      | BuildOpenAPIResources a => Some (StepResources a)
      | BuildServiceOffering a => Some (StepServiceOffering a)
      | _ => None
      end
  | Logged _ _ => None
  end.

Definition steps (t : list entry) : list step := omap step_of t.

(** Whether an entry is a call that threw. *)
Definition failed (e : entry) : bool :=
  match e with
  | Called _ o => is_thrown o
  | Logged _ _ => false
  end.

(** ** What [index.js] imports *)

(** The pure functions [index.js] imports and the built-ins it uses:
    [getConfig], [getVirtualResourceName] and
    [getInstantiatedVirtualResourceName] of [config.js], [joinUrl] of
    [utils.js], [path.join], [JSON.parse], [JSON.stringify], the two chalk
    colours, and the [@context] value of the presentation envelope.  Their
    bodies are not part of [index.js]; every result below holds for all of
    them. *)
Class Imports : Type := {
  getConfig : Config;
  getVirtualResourceName : string -> string;
  getInstantiatedVirtualResourceName : string -> string;
  joinUrl : string -> string -> string;
  path_join : string -> string -> string;
  JSON_parse : string -> Outcome Json;
  JSON_stringify : JsVal -> string;
  chalk_green : string -> string;
  chalk_red : string -> string;
  presentationContext : Json
}.

Section Source.
Context {imports : Imports}.

(** Modelled from the spec: [buildVerifiablePresentation] of [utils.js],
    which is not among the sources.  It wraps the ordered sequence of
    credentials under the presentation envelope: [@context], a [type]
    including [VerifiablePresentation], and [verifiableCredential]
    holding the sequence as given. *)
Definition buildVerifiablePresentation (verifiableCredentials : list Json) : Json :=
  JObj [ ("@context", presentationContext);
         ("type", JArr [JStr "VerifiablePresentation"]);
         ("verifiableCredential", JArr verifiableCredentials) ].

(** [(err.response && err.response.data) || err] *)
Definition errMsg (err : Exn) : JsVal :=
  match response err with
  | Some res => if truthy (data res) then VJson (data res) else VExn err
  | None => VExn err
  end.

(** [index.js], lines 21-48. *)
Definition signCredentials (verifiableCredentials : list Json) : prog Json :=
  let config := getConfig in
  let verifiablePresentation := buildVerifiablePresentation verifiableCredentials in
  logger info (str "Sending Verifiable Presentation to Compliance API");;
  logger info (str ("POST -> " +:+ urlAPICompliance config));;
  logger debug (VJson verifiablePresentation);;
  try_catch
    (res ← await (AxiosPost (urlAPICompliance config) verifiablePresentation);
     logger info (str (chalk_green "✅ Compliance success"));;
     logger debug (VJson (data res));;
     Ret (data res))
    (fun err =>
       logger error (str (chalk_red "🔴 Compliance error"));;
       logger error (errMsg err);;
       Throw (newError ("Error in Compliance API request: " +:+ JSON_stringify (errMsg err)))).

(** [index.js], lines 50-119. *)
Definition actionCredentials : prog unit :=
  logger info (str "Building Participant Verifiable Credential");;
  vcParticipant ← await BuildParticipantVC;
  logger debug (VJson vcParticipant);;
  logger info (str "Building Legal Registration Number Verifiable Credential");;
  vcLRN ← await BuildLegalRegistrationNumberVC;
  logger debug (VJson vcLRN);;
  logger info (str "Building Terms and Conditions Verifiable Credential");;
  vcTC ← await BuildTermsConditionsVC;
  logger debug (VJson vcTC);;
  logger info (str "Building Verifiable Credentials for Resources");;
  let config := getConfig in
  let virtResourceName := getVirtualResourceName (openAPISpec config) in
  let instVirtResourceName := getInstantiatedVirtualResourceName (openAPISpec config) in
  let virtResourceUrl := joinUrl (baseUrl config) (virtResourceName +:+ ".json") in
  let instVirtResourceUrl := joinUrl (baseUrl config) (instVirtResourceName +:+ ".json") in
  let virtResourceWritePath := path_join (webserverDir config) (virtResourceName +:+ ".json") in
  let instVirtResourceWritePath :=
    path_join (webserverDir config) (instVirtResourceName +:+ ".json") in
  resources ← await (BuildOpenAPIResources
    {| OpenAPIResources.openAPIUrl := openAPISpec config;
       OpenAPIResources.didIssuer := didWebId config;
       OpenAPIResources.participantUrl := urlParticipant config;
       OpenAPIResources.virtResourceUrl := virtResourceUrl;
       OpenAPIResources.virtResourceWritePath := virtResourceWritePath;
       OpenAPIResources.instVirtResourceUrl := instVirtResourceUrl;
       OpenAPIResources.instVirtResourceWritePath := instVirtResourceWritePath |});
  let vcIVR := OpenAPIResources.instantiatedVirtualResource resources in
  let vcVR := OpenAPIResources.virtualResource resources in
  logger debug (VJson vcIVR);;
  logger debug (VJson vcVR);;
  logger info (str "Building Verifiable Credential for Service Offering");;
  vcSO ← await (BuildServiceOffering
    {| ServiceOffering.didIssuer := didWebId config;
       ServiceOffering.legalParticipantUrl := urlParticipant config;
       ServiceOffering.termsConditionsPath := pathTermsConditions config;
       ServiceOffering.termsConditionsUrl := urlTermsConditions config;
       ServiceOffering.serviceOfferingUrl := urlServiceOffering config;
       ServiceOffering.serviceOfferingWritePath := pathServiceOffering config;
       ServiceOffering.aggregatedResourceUrls := [virtResourceUrl] |});
  logger debug (VJson vcSO);;
  Ret tt.

(** [JSON.parse(await fs.readFile(path, 'utf-8'))] *)
Definition readJson (path : string) : prog Json :=
  text ← await (FsReadFile path);
  lift (JSON_parse text).

(** [index.js], lines 121-172. *)
Definition actionVP : prog unit :=
  let config := getConfig in
  vcParticipant ← readJson (pathParticipant config);
  vcLRN ← readJson (pathLRN config);
  vcTC ← readJson (pathTermsConditions config);
  vcSO ← readJson (pathServiceOffering config);
  let virtResourceName := getVirtualResourceName (openAPISpec config) in
  let instVirtResourceName := getInstantiatedVirtualResourceName (openAPISpec config) in
  let virtResourceWritePath := path_join (webserverDir config) (virtResourceName +:+ ".json") in
  let instVirtResourceWritePath :=
    path_join (webserverDir config) (instVirtResourceName +:+ ".json") in
  vcVR ← readJson virtResourceWritePath;
  vcIVR ← readJson instVirtResourceWritePath;
  let verifiableCredentials := [vcParticipant; vcLRN; vcTC; vcSO] in
  vcCompliance ← signCredentials verifiableCredentials;
  let vpResult :=
    buildVerifiablePresentation (verifiableCredentials ++ [vcCompliance; vcVR; vcIVR]) in
  logger info (str ("Writing resulting Verifiable Presentation to "
                    +:+ pathVerifiablePresentation config));;
  await (UtilsWriteFile (pathVerifiablePresentation config) vpResult).

(** [index.js], lines 174-200: the commander table. *)
Record Command : Type := {
  command : string;
  description : string;
  action : prog unit
}.

Definition program : list Command :=
  [ {| command := "did";
       description := "Build the DID document that represents the identity of the participant";
       action := await WriteDIDFile |};
    {| command := "credentials";
       description := "Build and sign the Verifiable Credentials";
       action := actionCredentials |};
    {| command := "vp";
       description := "Build and sign the VP";
       action := actionVP |} ].

End Source.

(** ** A concrete environment

    A content store held in a finite map, a compliance endpoint that
    answers from a script, and builders that persist what they build.  It
    instantiates every import, so the workflows can be run on it. *)
Module Scenario.

Definition quote : string := String (Ascii.ascii_of_nat 34) EmptyString.

Definition join (sep : string) (parts : list string) : string :=
  match parts with
  | [] => EmptyString
  | p :: rest => fold_left (fun acc q => acc +:+ sep +:+ q) rest p
  end.

(** [JSON.stringify] on documents whose strings need no escaping. *)
Fixpoint stringify (v : Json) : string :=
  match v with
  | JNull => "null"
  | JBool true => "true"
  | JBool false => "false"
  | JNum n => pretty n
  | JStr s => quote +:+ s +:+ quote
  | JArr items => "[" +:+ join "," (map stringify items) +:+ "]"
  | JObj fields =>
      "{" +:+ join "," (map (fun kv => quote +:+ fst kv +:+ quote +:+ ":" +:+ stringify (snd kv))
                           fields) +:+ "}"
  end.

(** An error object serialises to its own fields. *)
Definition exn_json (e : Exn) : Json :=
  JObj [ ("message", JStr (message e)); ("name", JStr (name e));
         ("status", match response e with
                    | Some res => JNum (status res)
                    | None => JNull
                    end) ].

Definition stringify_val (v : JsVal) : string :=
  match v with
  | VJson j => stringify j
  | VExn e => stringify (exn_json e)
  end.

Definition credential (id : string) : Json :=
  JObj [ ("type", JArr [JStr "VerifiableCredential"]); ("id", JStr id) ].

Definition vcParticipant : Json := credential "participant".
Definition vcLRN : Json := credential "lrn".
Definition vcTC : Json := credential "tc".
Definition vcSO : Json := credential "service-offering".
Definition vcVR : Json := credential "virtual-resource".
Definition vcIVR : Json := credential "inst-virtual-resource".
Definition vcCompliance : Json := credential "compliance".

Definition documents : list Json :=
  [vcParticipant; vcLRN; vcTC; vcSO; vcVR; vcIVR; vcCompliance].

(** [JSON.parse] on the texts of the scenario: the inverse of
    [stringify] on [documents], a [SyntaxError] on any other text. *)
Definition parse (text : string) : Outcome Json :=
  match find (fun d => String.eqb (stringify d) text) documents with
  | Some d => Ok d
  | None =>
      Thrown {| name := "SyntaxError"; message := "Unexpected token"; response := None |}
  end.

Definition config : Config :=
  {| didWebId := "did:web:example.org";
     baseUrl := "https://example.org";
     webserverDir := "htdocs";
     openAPISpec := "petstore";
     urlAPICompliance := "https://compliance.example.org/api";
     urlParticipant := "https://example.org/participant.json";
     urlTermsConditions := "https://example.org/tc.json";
     urlServiceOffering := "https://example.org/so.json";
     pathParticipant := "htdocs/participant.json";
     pathLRN := "htdocs/lrn.json";
     pathTermsConditions := "htdocs/tc.json";
     pathServiceOffering := "htdocs/so.json";
     pathVerifiablePresentation := "htdocs/vp.json" |}.

Definition imports : Imports :=
  {| getConfig := config;
     getVirtualResourceName := fun spec => "virtual-resource-" +:+ spec;
     getInstantiatedVirtualResourceName := fun spec => "inst-virtual-resource-" +:+ spec;
     joinUrl := fun base rest => base +:+ "/" +:+ rest;
     path_join := fun dir file => dir +:+ "/" +:+ file;
     JSON_parse := parse;
     JSON_stringify := stringify_val;
     chalk_green := fun s => s;
     chalk_red := fun s => s;
     presentationContext := JArr [JStr "https://www.w3.org/2018/credentials/v1"] |}.


(** The outside world: the files on disk, the answers the compliance
    endpoint will give (one per request), and whether the registration
    number lookup behind the LRN builder is up. *)
Record World : Type := {
  disk : gmap string string;
  answers : list (Outcome AxiosResponse);
  registry_up : bool
}.

Definition store (path : string) (doc : Json) (w : World) : World :=
  {| disk := <[path := stringify doc]> (disk w);
     answers := answers w;
     registry_up := registry_up w |}.

Definition enoent (path : string) : Exn :=
  {| name := "Error"; message := "ENOENT: no such file or directory, open " +:+ path;
     response := None |}.

Definition network_error : Exn :=
  {| name := "AxiosError"; message := "Network Error"; response := None |}.

Definition on_effect {X} (c : effect X) : World -> Outcome X * World :=
  match c in effect X return World -> Outcome X * World with
  | FsReadFile path => fun w =>
      match disk w !! path with
      | Some text => (Ok text, w)
      | None => (Thrown (enoent path), w)
      end
  | AxiosPost url body => fun w =>
      match answers w with
      | a :: rest =>
          (a, {| disk := disk w; answers := rest; registry_up := registry_up w |})
      | [] => (Thrown network_error, w)
      end
  | UtilsWriteFile path content => fun w => (Ok tt, store path content w)
  | BuildParticipantVC => fun w =>
      (Ok vcParticipant, store (pathParticipant config) vcParticipant w)
  | BuildLegalRegistrationNumberVC => fun w =>
      if registry_up w
      then (Ok vcLRN, store (pathLRN config) vcLRN w)
      else (Thrown (newError "RegistrationInvalid"), w)
  | BuildTermsConditionsVC => fun w =>
      (Ok vcTC, store (pathTermsConditions config) vcTC w)
  | BuildOpenAPIResources a => fun w =>
      (Ok {| OpenAPIResources.instantiatedVirtualResource := vcIVR;
             OpenAPIResources.virtualResource := vcVR |},
       store (OpenAPIResources.instVirtResourceWritePath a) vcIVR
         (store (OpenAPIResources.virtResourceWritePath a) vcVR w))
  | BuildServiceOffering a => fun w =>
      match ServiceOffering.aggregatedResourceUrls a with
      | [] => (Thrown (newError "MissingResourceReference"), w)
      | _ :: _ => (Ok vcSO, store (ServiceOffering.serviceOfferingWritePath a) vcSO w)
      end
  | WriteDIDFile => fun w => (Ok tt, w)
  end.

Definition env : Env World :=
  {| perform := @on_effect; record := fun _ _ w => w |}.

(** An empty disk, a reachable registry, an endpoint answering [a]. *)
Definition fresh (a : Outcome AxiosResponse) : World :=
  {| disk := ∅; answers := [a]; registry_up := true |}.

(** The world the build workflow leaves behind. *)
Definition built (a : Outcome AxiosResponse) : World :=
  world (run env (@actionCredentials imports) (fresh a)).

Definition accepted : Outcome AxiosResponse :=
  Ok {| status := 201; data := vcCompliance |}.

(** A non-success answer with body [{"error":"invalid"}]. *)
Definition rejection (code : Z) (msg : string) : Exn :=
  {| name := "AxiosError"; message := msg;
     response := Some {| status := code; data := JObj [("error", JStr "invalid")] |} |}.

Definition rejected : Outcome AxiosResponse :=
  Thrown (rejection 409 "Request failed with status code 409").

(** The build workflow on an empty disk, and the present-and-sign
    workflow on what it leaves behind. *)
Definition build (a : Outcome AxiosResponse) : Run unit World :=
  run env (@actionCredentials imports) (fresh a).

Definition present (a : Outcome AxiosResponse) : Run unit World :=
  run env (@actionVP imports) (built a).

(** The same, with the Service Offering document removed in between. *)
Definition present_without_offering (a : Outcome AxiosResponse) : Run unit World :=
  run env (@actionVP imports)
    {| disk := delete (pathServiceOffering config) (disk (built a));
       answers := answers (built a);
       registry_up := registry_up (built a) |}.

(** The same, with the Service Offering file cut short. *)
Definition present_with_malformed_offering (a : Outcome AxiosResponse) : Run unit World :=
  run env (@actionVP imports)
    {| disk := <[pathServiceOffering config := "{"]> (disk (built a));
       answers := answers (built a);
       registry_up := registry_up (built a) |}.

(** The build workflow while the registration number lookup is down. *)
Definition build_registry_down : Run unit World :=
  run env (@actionCredentials imports)
    {| disk := ∅; answers := []; registry_up := false |}.

Definition base : list Json := [vcParticipant; vcLRN; vcTC; vcSO].

(** The argument objects of the resource and Service Offering steps
    under [config]. *)
Definition resources : OpenAPIResources.args :=
  {| OpenAPIResources.openAPIUrl := "petstore";
     OpenAPIResources.didIssuer := "did:web:example.org";
     OpenAPIResources.participantUrl := "https://example.org/participant.json";
     OpenAPIResources.virtResourceUrl :=
       "https://example.org/virtual-resource-petstore.json";
     OpenAPIResources.virtResourceWritePath := "htdocs/virtual-resource-petstore.json";
     OpenAPIResources.instVirtResourceUrl :=
       "https://example.org/inst-virtual-resource-petstore.json";
     OpenAPIResources.instVirtResourceWritePath :=
       "htdocs/inst-virtual-resource-petstore.json" |}.

Definition offering : ServiceOffering.args :=
  {| ServiceOffering.didIssuer := "did:web:example.org";
     ServiceOffering.legalParticipantUrl := "https://example.org/participant.json";
     ServiceOffering.termsConditionsPath := "htdocs/tc.json";
     ServiceOffering.termsConditionsUrl := "https://example.org/tc.json";
     ServiceOffering.serviceOfferingUrl := "https://example.org/so.json";
     ServiceOffering.serviceOfferingWritePath := "htdocs/so.json";
     ServiceOffering.aggregatedResourceUrls :=
       ["https://example.org/virtual-resource-petstore.json"] |}.

End Scenario.

(** ** Properties of programs and of environments *)

Definition is_post {X} (c : effect X) : bool :=
  match c with
  | AxiosPost _ _ => true
  | _ => false
  end.

(** A program tree with no [axios.post] node. *)
Inductive never_posts {A} : prog A -> Prop :=
| never_posts_Ret a : never_posts (Ret a)
| never_posts_Throw e : never_posts (Throw e)
| never_posts_Log l v k : never_posts k -> never_posts (Log l v k)
| never_posts_Vis X (c : effect X) k :
    is_post c = false -> (forall o, never_posts (k o)) -> never_posts (Vis c k).

(** A program tree that rethrows whatever a call throws, at once: there is
    no [catch] around any of its calls. *)
Inductive fail_stop {A} : prog A -> Prop :=
| fail_stop_Ret a : fail_stop (Ret a)
| fail_stop_Throw e : fail_stop (Throw e)
| fail_stop_Log l v k : fail_stop k -> fail_stop (Log l v k)
| fail_stop_Vis X (c : effect X) k :
    (forall e, k (Thrown e) = Throw e) ->
    (forall x, fail_stop (k (Ok x))) ->
    fail_stop (Vis c k).

(** Calls that only look at the outside world: reading a file and
    posting a request. *)
Definition observes {X} (c : effect X) : bool :=
  match c with
  | FsReadFile _ => true
  | AxiosPost _ _ => true
  | _ => false
  end.

Definition observing (e : entry) : bool :=
  match e with
  | Logged _ _ => true
  | Called c _ => observes c
  end.

(** [view] is a part of the outside world (the content store, say) that
    reading, posting and logging leave as it is. *)
Definition preserved {W D} (view : W -> D) (env : Env W) : Prop :=
  (forall X (c : effect X) w, observes c = true -> view (snd (perform env c w)) = view w)
  /\ (forall l v w, view (record env l v w) = view w).

Section Reading.
Context {imports : Imports}.

(** A read that did not yield a document: the file could not be read,
    or its text does not parse. *)
Definition read_failed (e : entry) : bool :=
  match read_result_of e with
  | Some (Ok text) => is_thrown (JSON_parse text)
  | Some (Thrown _) => true
  | None => false
  end.

(** The statement that the error [signCredentials] throws has the error
    the request failed with attached: some accessor reads it back from
    the thrown error, whatever the environment and the failure. *)
Definition original_error_attached : Prop :=
  exists original : Exn -> Exn,
    forall (W : Type) (env : Env W) (w : W) (verifiableCredentials : list Json) (err : Exn),
      post_answers (trace (run env (signCredentials verifiableCredentials) w)) = [Thrown err] ->
      exists thrown,
        result (run env (signCredentials verifiableCredentials) w) = Thrown thrown
        /\ original thrown = err.
End Reading.

(** ** Tactics *)

(** Case analysis on what the environment answers to the next call in
    the goal, and on whether a text that was read parses. *)
Ltac answer :=
  match goal with
  | |- context [perform ?env ?c ?w] =>
      let o := fresh "o" in
      let w' := fresh "w" in
      destruct (perform env c w) as [o w']; destruct o; cbn
  | |- context [JSON_parse ?text] =>
      destruct (JSON_parse text) eqn:?; cbn
  end.

Ltac execute := cbn; repeat answer.

(** The texts that were read and parsed, used where the goal mentions
    the parser again. *)
Ltac parsed :=
  repeat match goal with
         | H : JSON_parse ?text = _ |- context [JSON_parse ?text] => rewrite H
         end.

(** Walk a concrete trace entry by entry to find where [pre] ends. *)
Ltac locate Ht He :=
  repeat match type of Ht with
         | _ :: _ = ?pre ++ _ :: _ =>
             destruct pre as [|? pre]; cbn in Ht;
             [ injection Ht as <- <-; try (exfalso; apply He; reflexivity)
             | injection Ht as <- Ht ]
         end;
  try match type of Ht with
      | [] = ?pre ++ _ :: _ => destruct pre; discriminate Ht
      end.

(** * Results *)

(** ** Program trees and their runs *)

Section Running.
Context {W : Type} (env : Env W).

Lemma never_posts_bind {A B} (p : prog A) (f : A -> prog B) :
  never_posts p -> (forall a, never_posts (f a)) -> never_posts (bind p f).
Proof.
  intros Hp Hf. induction Hp; cbn; try constructor; auto.
Qed.

Lemma never_posts_await {X} (c : effect X) : is_post c = false -> never_posts (await c).
Proof.
  intros Hc. apply never_posts_Vis; [exact Hc|]. intros [x|e]; constructor.
Qed.

Lemma never_posts_logger l v : never_posts (logger l v).
Proof. repeat constructor. Qed.

(** A tree without a post node posts nothing, whatever the environment. *)
Lemma never_posts_run {A} (p : prog A) (w : W) :
  never_posts p -> posts (trace (run env p w)) = [].
Proof.
  intros Hp. revert w.
  induction Hp as [a|e|l v k _ IH|X c k Hc _ IH]; intros w; cbn; auto.
  unfold posts in IH. rewrite IH. destruct c; cbn in *; congruence.
Qed.

Lemma fail_stop_bind {A B} (p : prog A) (f : A -> prog B) :
  fail_stop p -> (forall a, fail_stop (f a)) -> fail_stop (bind p f).
Proof.
  intros Hp Hf. induction Hp as [a|e|l v k _ IH|X c k Hthrow _ IH]; cbn; auto.
  - constructor.
  - constructor. exact IH.
  - constructor; [|exact IH]. intros e. rewrite Hthrow. reflexivity.
Qed.

Lemma fail_stop_await {X} (c : effect X) : fail_stop (await c).
Proof. constructor; [reflexivity|]. intros x. constructor. Qed.

Lemma fail_stop_logger l v : fail_stop (logger l v).
Proof. repeat constructor. Qed.

(** In a run of such a tree a call that throws is the last thing that
    happens, and the run ends with an error. *)
Lemma fail_stop_run {A} (p : prog A) (w : W) :
  fail_stop p ->
  forall pre e suf,
    trace (run env p w) = pre ++ e :: suf -> failed e = true ->
    suf = [] /\ is_thrown (result (run env p w)) = true.
Proof.
  intros Hp. revert w.
  induction Hp as [a|x|l v k _ IH|X c k Hthrow _ IH]; intros w pre e suf Ht He; cbn in Ht |- *.
  - destruct pre; discriminate.
  - destruct pre; discriminate.
  - destruct pre as [|e' pre]; cbn in Ht.
    + injection Ht as <- _. discriminate.
    + injection Ht as _ Ht. exact (IH _ _ _ _ Ht He).
  - destruct (perform env c w) as [[x|x] w']; cbn in *.
    + destruct pre as [|e' pre]; cbn in Ht.
      * injection Ht as <- _. discriminate.
      * injection Ht as _ Ht. exact (IH _ _ _ _ _ Ht He).
    + rewrite Hthrow in *. cbn in *.
      destruct pre as [|e' [|e'' pre]]; cbn in Ht; try discriminate.
      injection Ht as _ <-. auto.
Qed.

(** A run whose trace only holds reads, posts and log lines leaves a
    preserved part of the world as it found it. *)
Lemma preserved_run {A D} (view : W -> D) (p : prog A) (w : W) :
  preserved view env ->
  forallb observing (trace (run env p w)) = true ->
  view (world (run env p w)) = view w.
Proof.
  intros [Hcall Hlog]. revert w.
  induction p as [a|e|l v k IH|X c k IH]; intros w Ht; cbn in *; auto.
  - rewrite IH by exact Ht. apply Hlog.
  - apply andb_prop in Ht as [Hc Ht]. rewrite IH by exact Ht. apply Hcall, Hc.
Qed.

End Running.

Create HintDb workflow.
#[global] Hint Resolve never_posts_logger fail_stop_logger fail_stop_await : workflow.
#[global] Hint Constructors never_posts fail_stop : workflow.

(** ** The presentation assembler *)

Section Assembler.
Context {imports : Imports}.

(** C4: [buildVerifiablePresentation] is a function of its argument
    alone (a document, not a program: it makes no call) and the
    [verifiableCredential] member of the presentation it returns is
    exactly the input sequence, in the same order; in particular
    [[A; B; C]] yields [[A; B; C]]. *)
Theorem buildVerifiablePresentation_preserves_order :
  (forall verifiableCredentials : list Json,
      get "verifiableCredential" (buildVerifiablePresentation verifiableCredentials)
      = Some (JArr verifiableCredentials))
  /\ (forall A B C : Json,
         get "verifiableCredential" (buildVerifiablePresentation [A; B; C])
         = Some (JArr [A; B; C]))
  /\ (forall verifiableCredentials : list Json,
         get "type" (buildVerifiablePresentation verifiableCredentials)
         = Some (JArr [JStr "VerifiablePresentation"])).
Proof.
  repeat split; intros; reflexivity.
Qed.

End Assembler.

(** ** The compliance submission client *)

Section Client.
Context {imports : Imports} {W : Type} (env : Env W).

(** C5: every run of [signCredentials] posts exactly once, to the
    configured compliance endpoint, the presentation assembled from the
    credentials it was given; when the endpoint answers, the response
    body is returned as it is; when the request fails the error is
    thrown without a second attempt. *)
Theorem signCredentials_single_post (w : W) (verifiableCredentials : list Json) :
  exists answer : Outcome AxiosResponse,
    posts (trace (run env (signCredentials verifiableCredentials) w))
    = [(urlAPICompliance getConfig, buildVerifiablePresentation verifiableCredentials)]
    /\ post_answers (trace (run env (signCredentials verifiableCredentials) w)) = [answer]
    /\ result (run env (signCredentials verifiableCredentials) w)
       = match answer with
         | Ok res => Ok (data res)
         | Thrown err =>
             Thrown (newError ("Error in Compliance API request: "
                               +:+ JSON_stringify (errMsg err)))
         end.
Proof.
  unfold signCredentials. execute; eexists; repeat split; reflexivity.
Qed.

(** What [errMsg] picks: the response body when the error has a
    response with a truthy body, the error itself otherwise. *)
Lemma errMsg_payload (err : Exn) (res : AxiosResponse) :
  response err = Some res -> truthy (data res) = true -> errMsg err = VJson (data res).
Proof. unfold errMsg. intros -> ->. reflexivity. Qed.

Lemma errMsg_raw (err : Exn) :
  response err = None -> errMsg err = VExn err.
Proof. unfold errMsg. intros ->. reflexivity. Qed.

Lemma errMsg_falsy_body (err : Exn) (res : AxiosResponse) :
  response err = Some res -> truthy (data res) = false -> errMsg err = VExn err.
Proof. unfold errMsg. intros -> ->. reflexivity. Qed.

(** C3, as amended: when the request fails with [err], [signCredentials]
    hands [logger.error] the response body of [err] when there is a
    response with a truthy body and [err] itself otherwise, and throws
    one [new Error] whose message is the fixed prefix followed by the
    serialisation of that same value; the thrown error has no response
    of its own. *)
Theorem signCredentials_failure (w : W) (verifiableCredentials : list Json) (err : Exn) :
  post_answers (trace (run env (signCredentials verifiableCredentials) w)) = [Thrown err] ->
  result (run env (signCredentials verifiableCredentials) w)
  = Thrown (newError ("Error in Compliance API request: " +:+ JSON_stringify (errMsg err)))
  /\ errors_logged (trace (run env (signCredentials verifiableCredentials) w))
     = [str (chalk_red "🔴 Compliance error"); errMsg err]
  /\ (forall res, response err = Some res -> truthy (data res) = true ->
                  errMsg err = VJson (data res))
  /\ ((response err = None \/
       exists res, response err = Some res /\ truthy (data res) = false) ->
      errMsg err = VExn err).
Proof.
  unfold signCredentials. execute; intros [= <-].
  repeat split.
  - apply errMsg_payload.
  - intros [Hnone|(res & Hres & Hfalsy)]; eauto using errMsg_raw, errMsg_falsy_body.
Qed.

End Client.

(** ** The build workflow *)

Section Build.
Context {imports : Imports} {W : Type} (env : Env W).

Lemma actionCredentials_fail_stop : fail_stop actionCredentials.
Proof.
  unfold actionCredentials, mbind, prog_bind.
  repeat (apply fail_stop_bind; [auto with workflow | intros ?]).
  constructor.
Qed.

Lemma actionCredentials_never_posts : never_posts actionCredentials.
Proof.
  unfold actionCredentials, mbind, prog_bind.
  repeat (apply never_posts_bind;
          [first [apply never_posts_logger | apply never_posts_await; reflexivity]
          | intros ?]).
  constructor.
Qed.

(** C7: in every run of the build workflow the builder calls made are
    an initial part of Participant, LRN, Terms and Conditions, resource
    translation, Service Offering, in that order; the Service Offering
    step is passed the virtual-resource URL that the resource step was
    passed; a call that throws is the last thing the run does, and the
    run ends with that error; when no call throws all five steps run. *)
Theorem actionCredentials_sequence (w : W) :
  exists (resources : OpenAPIResources.args) (offering : ServiceOffering.args),
    steps (trace (run env actionCredentials w))
      `prefix_of` [StepParticipant; StepLRN; StepTermsConditions;
                   StepResources resources; StepServiceOffering offering]
    /\ OpenAPIResources.virtResourceUrl resources
       = joinUrl (baseUrl getConfig)
           (getVirtualResourceName (openAPISpec getConfig) +:+ ".json")
    /\ ServiceOffering.aggregatedResourceUrls offering
       = [OpenAPIResources.virtResourceUrl resources]
    /\ (forall pre e suf,
           trace (run env actionCredentials w) = pre ++ e :: suf ->
           failed e = true ->
           suf = [] /\ is_thrown (result (run env actionCredentials w)) = true)
    /\ (existsb failed (trace (run env actionCredentials w)) = false ->
        steps (trace (run env actionCredentials w))
        = [StepParticipant; StepLRN; StepTermsConditions;
           StepResources resources; StepServiceOffering offering]
        /\ result (run env actionCredentials w) = Ok tt).
Proof.
  do 2 eexists. split; [|split; [|split; [|split]]].
  - unfold actionCredentials. execute; eexists; reflexivity.
  - reflexivity.
  - reflexivity.
  - apply fail_stop_run, actionCredentials_fail_stop.
  - unfold actionCredentials. execute; intros Hnone; try discriminate.
    split; reflexivity.
Qed.


(** The argument object the resource step is called with. *)
Lemma resources_step_args (w : W) (resources : OpenAPIResources.args) :
  In (StepResources resources) (steps (trace (run env actionCredentials w))) ->
  OpenAPIResources.virtResourceWritePath resources
  = path_join (webserverDir getConfig)
      (getVirtualResourceName (openAPISpec getConfig) +:+ ".json")
  /\ OpenAPIResources.instVirtResourceWritePath resources
     = path_join (webserverDir getConfig)
         (getInstantiatedVirtualResourceName (openAPISpec getConfig) +:+ ".json").
Proof.
  unfold actionCredentials. execute; intros Hin;
    repeat (destruct Hin as [Hin|Hin]; [try discriminate|]); try contradiction.
  all: injection Hin as <-; split; reflexivity.
Qed.

(** C10: the command registered as [credentials] is described as
    "Build and sign the Verifiable Credentials" and runs
    [actionCredentials], no run of which posts anything; of the three
    commands only [vp] has runs that post. *)
Theorem credentials_command_never_signs :
  (forall cmd, In cmd program -> command cmd = "credentials" ->
               description cmd = "Build and sign the Verifiable Credentials"
               /\ action cmd = actionCredentials)
  /\ (forall w, posts (trace (run env actionCredentials w)) = [])
  /\ (forall cmd w, In cmd program ->
                    posts (trace (run env (action cmd) w)) <> [] ->
                    command cmd = "vp").
Proof.
  split; [|split].
  - intros cmd [<-|[<-|[<-|[]]]]; cbn; intros [=]. split; reflexivity.
  - intros w. apply never_posts_run, actionCredentials_never_posts.
  - intros cmd w [<-|[<-|[<-|[]]]]; cbn [action command]; intros Hposts.
    + exfalso. apply Hposts, never_posts_run, never_posts_await. reflexivity.
    + exfalso. apply Hposts, never_posts_run, actionCredentials_never_posts.
    + reflexivity.
Qed.

End Build.

(** ** The present-and-sign workflow *)

Section Present.
Context {imports : Imports} {W : Type} (env : Env W).

(** C1: when the six documents load and the endpoint answers [res], the
    run of [actionVP] is the six reads, then the run of [signCredentials]
    on the four base credentials Participant, LRN, Terms and Conditions,
    Service Offering (so these four are what is posted), then the write,
    to the configured presentation path, of the presentation assembled
    from the seven credentials in the order Participant, LRN, Terms and
    Conditions, Service Offering, compliance, virtual resource,
    instantiated virtual resource. *)
Theorem actionVP_final_presentation (w : W)
    (tParticipant tLRN tTC tSO tVR tIVR : string)
    (vcParticipant vcLRN vcTC vcSO vcVR vcIVR : Json) (res : AxiosResponse) :
  read_results (trace (run env actionVP w))
  = [Ok tParticipant; Ok tLRN; Ok tTC; Ok tSO; Ok tVR; Ok tIVR] ->
  JSON_parse tParticipant = Ok vcParticipant ->
  JSON_parse tLRN = Ok vcLRN ->
  JSON_parse tTC = Ok vcTC ->
  JSON_parse tSO = Ok vcSO ->
  JSON_parse tVR = Ok vcVR ->
  JSON_parse tIVR = Ok vcIVR ->
  post_answers (trace (run env actionVP w)) = [Ok res] ->
  exists (w' : W) (written : Outcome unit),
    trace (run env actionVP w)
    = [ Called (FsReadFile (pathParticipant getConfig)) (Ok tParticipant);
        Called (FsReadFile (pathLRN getConfig)) (Ok tLRN);
        Called (FsReadFile (pathTermsConditions getConfig)) (Ok tTC);
        Called (FsReadFile (pathServiceOffering getConfig)) (Ok tSO);
        Called (FsReadFile (path_join (webserverDir getConfig)
                  (getVirtualResourceName (openAPISpec getConfig) +:+ ".json")))
               (Ok tVR);
        Called (FsReadFile (path_join (webserverDir getConfig)
                  (getInstantiatedVirtualResourceName (openAPISpec getConfig) +:+ ".json")))
               (Ok tIVR) ]
      ++ trace (run env (signCredentials [vcParticipant; vcLRN; vcTC; vcSO]) w')
      ++ [ Logged info (str ("Writing resulting Verifiable Presentation to "
                             +:+ pathVerifiablePresentation getConfig));
           Called (UtilsWriteFile (pathVerifiablePresentation getConfig)
                     (buildVerifiablePresentation
                        [vcParticipant; vcLRN; vcTC; vcSO; data res; vcVR; vcIVR]))
                  written ]
    /\ posts (trace (run env actionVP w))
       = [(urlAPICompliance getConfig,
           buildVerifiablePresentation [vcParticipant; vcLRN; vcTC; vcSO])]
    /\ writes (trace (run env actionVP w))
       = [(pathVerifiablePresentation getConfig,
           buildVerifiablePresentation
             [vcParticipant; vcLRN; vcTC; vcSO; data res; vcVR; vcIVR])]
    /\ get "verifiableCredential"
         (buildVerifiablePresentation
            [vcParticipant; vcLRN; vcTC; vcSO; data res; vcVR; vcIVR])
       = Some (JArr [vcParticipant; vcLRN; vcTC; vcSO; data res; vcVR; vcIVR])
    /\ result (run env actionVP w) = written.
Proof.
  intros Hreads HP HL HT HS HVR HIVR Hpost. revert Hreads Hpost.
  unfold actionVP, readJson, signCredentials. cbn.
  repeat match goal with
         | |- context [perform env (FsReadFile ?p) ?w0] =>
             let text := fresh "text" in
             destruct (perform env (FsReadFile p) w0) as [[text|?] ?]; cbn;
             [ destruct (JSON_parse text) eqn:?; cbn |]
         end;
    try (intros [=]; congruence).
  match goal with
  | |- context [perform env (AxiosPost ?u ?b) ?w0] =>
      destruct (perform env (AxiosPost u b) w0) as [[res'|e] ?] eqn:Hanswer; cbn
  end; [| intros _ [=]].
  match goal with
  | |- context [perform env (UtilsWriteFile ?p ?d) ?w0] =>
      destruct (perform env (UtilsWriteFile p d) w0) as [written ?]; cbn
  end.
  intros [= -> -> -> -> -> ->] [= ->].
  repeat match goal with
         | H1 : JSON_parse ?t = Ok ?a, H2 : JSON_parse ?t = Ok ?b |- _ =>
             rewrite H1 in H2; injection H2 as <-
         end.
  eexists _, written. split; [| destruct written; repeat split; reflexivity].
  cbn. rewrite Hanswer. destruct written; reflexivity.
Qed.

(** C2: when the compliance request fails, [actionVP] ends with the
    error [signCredentials] throws and calls [writeFile] not once, so
    nothing is written to the presentation path; all it did was read,
    log and post, which leaves the content store as it found it. *)
Theorem actionVP_compliance_rejected {D : Type} (view : W -> D) (w : W) (err : Exn) :
  preserved view env ->
  post_answers (trace (run env actionVP w)) = [Thrown err] ->
  writes (trace (run env actionVP w)) = []
  /\ result (run env actionVP w)
     = Thrown (newError ("Error in Compliance API request: "
                         +:+ JSON_stringify (errMsg err)))
  /\ view (world (run env actionVP w)) = view w.
Proof.
  intros Hview Hpost.
  assert (writes (trace (run env actionVP w)) = []
          /\ result (run env actionVP w)
             = Thrown (newError ("Error in Compliance API request: "
                                 +:+ JSON_stringify (errMsg err)))
          /\ forallb observing (trace (run env actionVP w)) = true)
    as (Hwrites & Hresult & Hquiet).
  { revert Hpost. unfold actionVP, readJson, signCredentials.
    execute; intros [= <-]. repeat split. }
  repeat split; [exact Hwrites | exact Hresult |].
  apply preserved_run; [exact Hview | exact Hquiet].
Qed.

(** C6: in every run of [actionVP], at the moment a request is posted
    the six documents have been read, in the order Participant, LRN,
    Terms and Conditions, Service Offering, virtual resource,
    instantiated virtual resource, each of them read and parsed with
    success, and nothing is read afterwards; and a run in which a read
    fails, or a text does not parse, posts nothing, writes nothing and
    ends with an error. *)
Theorem actionVP_reads_before_post (w : W) :
  (forall pre e suf,
      trace (run env actionVP w) = pre ++ e :: suf ->
      post_of e <> None ->
      reads pre
      = [ pathParticipant getConfig; pathLRN getConfig;
          pathTermsConditions getConfig; pathServiceOffering getConfig;
          path_join (webserverDir getConfig)
            (getVirtualResourceName (openAPISpec getConfig) +:+ ".json");
          path_join (webserverDir getConfig)
            (getInstantiatedVirtualResourceName (openAPISpec getConfig) +:+ ".json") ]
      /\ existsb read_failed pre = false
      /\ reads suf = [])
  /\ (existsb read_failed (trace (run env actionVP w)) = true ->
      posts (trace (run env actionVP w)) = []
      /\ writes (trace (run env actionVP w)) = []
      /\ is_thrown (result (run env actionVP w)) = true).
Proof.
  split.
  - unfold actionVP, readJson, signCredentials. execute.
    all: intros pre ev suf Ht He; locate Ht He.
    all: cbn; unfold read_failed; cbn; parsed; repeat split.
  - unfold actionVP, readJson, signCredentials. execute.
    all: unfold read_failed; cbn; parsed; cbn; intros Hfailed.
    all: first [discriminate Hfailed | repeat split].
Qed.

(** C8: the two write paths the build workflow hands to the resource
    step are the paths the present-and-sign workflow reads its fifth
    and sixth document from: in any run of [actionVP], in any
    environment, the paths read are an initial part of the four
    configured paths followed by those two, and all six when the run
    gets as far as posting. *)
Theorem resource_paths_agree {W' : Type} (build : Env W') (w' : W') (w : W)
    (resources : OpenAPIResources.args) :
  In (StepResources resources) (steps (trace (run build actionCredentials w'))) ->
  reads (trace (run env actionVP w))
    `prefix_of` [ pathParticipant getConfig; pathLRN getConfig;
                  pathTermsConditions getConfig; pathServiceOffering getConfig;
                  OpenAPIResources.virtResourceWritePath resources;
                  OpenAPIResources.instVirtResourceWritePath resources ]
  /\ (posts (trace (run env actionVP w)) <> [] ->
      reads (trace (run env actionVP w))
      = [ pathParticipant getConfig; pathLRN getConfig;
          pathTermsConditions getConfig; pathServiceOffering getConfig;
          OpenAPIResources.virtResourceWritePath resources;
          OpenAPIResources.instVirtResourceWritePath resources ]).
Proof.
  intros Hstep. apply resources_step_args in Hstep as [-> ->].
  split.
  - unfold actionVP, readJson, signCredentials. execute; eexists; reflexivity.
  - unfold actionVP, readJson, signCredentials. execute; intros Hposts;
      first [reflexivity | contradiction].
Qed.

End Present.

(** ** The workflows on the concrete environment *)

Section Scenarios.
Import Scenario.

Lemma scenario_preserved : preserved disk env.
Proof.
  split.
  - intros X c w Hc. destruct c; try discriminate Hc; cbn.
    + destruct (disk w !! path); reflexivity.
    + destruct (answers w); reflexivity.
  - reflexivity.
Qed.

(** Build, then present, with the endpoint accepting: the presentation
    file holds the seven credentials. *)
Example scenario_accepted :
  result (present accepted) = Ok tt
  /\ disk (world (present accepted)) !! "htdocs/vp.json"
     = Some (stringify
               (@buildVerifiablePresentation imports
                  (base ++ [vcCompliance; vcVR; vcIVR]))).
Proof. split; vm_compute; reflexivity. Qed.

(** A missing Service Offering file stops the workflow after four
    reads, before anything is posted. *)
Example scenario_missing_file :
  reads (trace (present_without_offering accepted))
  = ["htdocs/participant.json"; "htdocs/lrn.json"; "htdocs/tc.json"; "htdocs/so.json"]
  /\ posts (trace (present_without_offering accepted)) = []
  /\ result (present_without_offering accepted) = Thrown (enoent "htdocs/so.json").
Proof. repeat split; vm_compute; reflexivity. Qed.

(** A Service Offering file that does not parse stops it at the same
    point. *)
Example scenario_malformed_file :
  reads (trace (present_with_malformed_offering accepted))
  = ["htdocs/participant.json"; "htdocs/lrn.json"; "htdocs/tc.json"; "htdocs/so.json"]
  /\ posts (trace (present_with_malformed_offering accepted)) = []
  /\ is_thrown (result (present_with_malformed_offering accepted)) = true.
Proof. repeat split; vm_compute; reflexivity. Qed.

(** With the registry down the build stops at the LRN step: the later
    documents are not on disk, the Participant document is. *)
Example scenario_registry_down :
  steps (trace build_registry_down) = [StepParticipant; StepLRN]
  /\ result build_registry_down = Thrown (newError "RegistrationInvalid")
  /\ disk (world build_registry_down) !! "htdocs/tc.json" = None
  /\ disk (world build_registry_down) !! "htdocs/participant.json"
     = Some (stringify vcParticipant).
Proof. repeat split; vm_compute; reflexivity. Qed.

(** C1 at work: the build output is loaded, the endpoint accepts. *)
Lemma actionVP_final_presentation_scenario :
  read_results (trace (present accepted))
  = [Ok (stringify vcParticipant); Ok (stringify vcLRN); Ok (stringify vcTC);
     Ok (stringify vcSO); Ok (stringify vcVR); Ok (stringify vcIVR)]
  /\ Forall (fun d => parse (stringify d) = Ok d) (base ++ [vcVR; vcIVR])
  /\ post_answers (trace (present accepted)) = [accepted]
  /\ posts (trace (present accepted))
     = [("https://compliance.example.org/api", @buildVerifiablePresentation imports base)]
  /\ writes (trace (present accepted))
     = [("htdocs/vp.json",
         @buildVerifiablePresentation imports (base ++ [vcCompliance; vcVR; vcIVR]))].
Proof.
  assert (read_results (trace (present accepted))
          = [Ok (stringify vcParticipant); Ok (stringify vcLRN); Ok (stringify vcTC);
             Ok (stringify vcSO); Ok (stringify vcVR); Ok (stringify vcIVR)]) as Hreads
    by (vm_compute; reflexivity).
  assert (post_answers (trace (present accepted)) = [accepted]) as Hpost
    by (vm_compute; reflexivity).
  assert (forall d, In d (base ++ [vcVR; vcIVR]) -> parse (stringify d) = Ok d) as Hparse.
  { intros d Hd. cbn in Hd.
    repeat (destruct Hd as [<-|Hd]; [vm_compute; reflexivity|]). destruct Hd. }
  destruct (@actionVP_final_presentation imports World env (built accepted)
              (stringify vcParticipant) (stringify vcLRN) (stringify vcTC)
              (stringify vcSO) (stringify vcVR) (stringify vcIVR)
              vcParticipant vcLRN vcTC vcSO vcVR vcIVR
              {| status := 201; data := vcCompliance |}
              Hreads
              (Hparse vcParticipant ltac:(cbn; tauto)) (Hparse vcLRN ltac:(cbn; tauto))
              (Hparse vcTC ltac:(cbn; tauto)) (Hparse vcSO ltac:(cbn; tauto))
              (Hparse vcVR ltac:(cbn; tauto)) (Hparse vcIVR ltac:(cbn; tauto))
              Hpost)
    as (w' & written & _ & Hposts & Hwrites & _).
  split; [exact Hreads|]. split; [apply List.Forall_forall; exact Hparse|].
  split; [exact Hpost|]. split; [exact Hposts | exact Hwrites].
Defined.

(** C2 at work: the endpoint answers 409 with body [{"error":"invalid"}]. *)
Lemma actionVP_compliance_rejected_scenario :
  post_answers (trace (present rejected)) = [rejected]
  /\ writes (trace (present rejected)) = []
  /\ result (present rejected)
     = Thrown (newError ("Error in Compliance API request: "
                         +:+ stringify (JObj [("error", JStr "invalid")])))
  /\ disk (world (present rejected)) = disk (built rejected).
Proof.
  assert (post_answers (trace (present rejected)) = [rejected]) as Hpost
    by (vm_compute; reflexivity).
  split; [exact Hpost|].
  exact (@actionVP_compliance_rejected imports World env _ disk (built rejected)
           (rejection 409 "Request failed with status code 409")
           scenario_preserved Hpost).
Defined.

(** C3 at work: the same rejection, seen from [signCredentials]. *)
Lemma signCredentials_failure_scenario :
  post_answers (trace (run env (@signCredentials imports base) (fresh rejected))) = [rejected]
  /\ result (run env (@signCredentials imports base) (fresh rejected))
     = Thrown (newError ("Error in Compliance API request: "
                         +:+ stringify (JObj [("error", JStr "invalid")])))
  /\ errors_logged (trace (run env (@signCredentials imports base) (fresh rejected)))
     = [str "🔴 Compliance error"; VJson (JObj [("error", JStr "invalid")])].
Proof.
  assert (post_answers (trace (run env (@signCredentials imports base) (fresh rejected)))
          = [rejected]) as Hpost by (vm_compute; reflexivity).
  destruct (@signCredentials_failure imports World env (fresh rejected) base
              (rejection 409 "Request failed with status code 409") Hpost)
    as (Hresult & Hlogged & _).
  split; [exact Hpost|]. split; [exact Hresult | exact Hlogged].
Defined.

(** C3 as stated fails: a 409 and a 400 with the same body make
    [signCredentials] throw the same error, so no accessor reads the
    underlying error back from what is thrown. *)
Lemma original_error_not_attached : ~ @original_error_attached imports.
Proof.
  intros [original Hattached].
  pose (err409 := rejection 409 "Request failed with status code 409").
  pose (err400 := rejection 400 "Request failed with status code 400").
  destruct (Hattached World env (fresh (Thrown err409)) base err409)
    as (thrown & Hthrown & H409); [vm_compute; reflexivity|].
  destruct (Hattached World env (fresh (Thrown err400)) base err400)
    as (thrown' & Hthrown' & H400); [vm_compute; reflexivity|].
  assert (thrown = thrown') as Hsame.
  { vm_compute in Hthrown, Hthrown'. congruence. }
  assert (err409 = err400) as Heq by congruence.
  discriminate Heq.
Qed.

(** C8 at work: the paths handed to the resource step are read back. *)
Lemma resource_paths_agree_scenario :
  In (StepResources resources) (steps (trace (build accepted)))
  /\ reads (trace (present accepted))
     = ["htdocs/participant.json"; "htdocs/lrn.json"; "htdocs/tc.json"; "htdocs/so.json";
        "htdocs/virtual-resource-petstore.json";
        "htdocs/inst-virtual-resource-petstore.json"].
Proof.
  assert (In (StepResources resources) (steps (trace (build accepted)))) as Hstep
    by (vm_compute; tauto).
  split; [exact Hstep|].
  destruct (@resource_paths_agree imports World env World env
              (fresh accepted) (built accepted) resources Hstep) as [_ Hall].
  apply Hall. vm_compute. discriminate.
Defined.



End Scenarios.

(** ** Further properties of the client *)

Section ClientMore.
Context {imports : Imports} {W : Type} (env : Env W).

(** X1: [signCredentials] calls [logger.error] exactly in the runs that
    throw: a run that returns logs nothing at error level, a run that
    throws logs two error lines. *)
Theorem signCredentials_error_log_iff_failure (w : W) (verifiableCredentials : list Json) :
  (is_thrown (result (run env (signCredentials verifiableCredentials) w)) = false
   /\ errors_logged (trace (run env (signCredentials verifiableCredentials) w)) = [])
  \/ (is_thrown (result (run env (signCredentials verifiableCredentials) w)) = true
      /\ length (errors_logged (trace (run env (signCredentials verifiableCredentials) w))) = 2).
Proof.
  unfold signCredentials. execute; [left | right]; split; reflexivity.
Qed.

(** X2: [signCredentials] reads no file, writes no file and calls no
    builder; what it does is one post and log lines, so a part of the
    world that posting and logging preserve is left as it was, whether
    the request succeeds or fails. *)
Theorem signCredentials_only_posts_and_logs {D : Type} (view : W -> D) (w : W)
    (verifiableCredentials : list Json) :
  preserved view env ->
  reads (trace (run env (signCredentials verifiableCredentials) w)) = []
  /\ writes (trace (run env (signCredentials verifiableCredentials) w)) = []
  /\ steps (trace (run env (signCredentials verifiableCredentials) w)) = []
  /\ view (world (run env (signCredentials verifiableCredentials) w)) = view w.
Proof.
  intros Hview.
  assert (reads (trace (run env (signCredentials verifiableCredentials) w)) = []
          /\ writes (trace (run env (signCredentials verifiableCredentials) w)) = []
          /\ steps (trace (run env (signCredentials verifiableCredentials) w)) = []
          /\ forallb observing (trace (run env (signCredentials verifiableCredentials) w))
             = true) as (Hr & Hw & Hs & Hquiet).
  { unfold signCredentials. execute; repeat split. }
  split; [exact Hr|]. split; [exact Hw|]. split; [exact Hs|].
  apply preserved_run; [exact Hview | exact Hquiet].
Qed.

End ClientMore.

(** ** Further properties of the build workflow *)

Section BuildMore.
Context {imports : Imports} {W : Type} (env : Env W).

(** X3: the build workflow itself reads no file and calls [writeFile]
    not once (what is persisted is persisted inside the builders), and it
    never logs at error level, not even in a run where a builder
    throws. *)
Theorem actionCredentials_no_direct_io (w : W) :
  reads (trace (run env actionCredentials w)) = []
  /\ writes (trace (run env actionCredentials w)) = []
  /\ errors_logged (trace (run env actionCredentials w)) = [].
Proof.
  unfold actionCredentials. execute; repeat split.
Qed.

(** X5: the resource step and the Service Offering step of one run are
    called for the same issuer and the same participant URL, both taken
    from the configuration, and each resource is published under a URL and
    stored under a path that end in the same file name. *)
Theorem build_steps_agree (w : W)
    (resources : OpenAPIResources.args) (offering : ServiceOffering.args) :
  In (StepResources resources) (steps (trace (run env actionCredentials w))) ->
  In (StepServiceOffering offering) (steps (trace (run env actionCredentials w))) ->
  ServiceOffering.didIssuer offering = OpenAPIResources.didIssuer resources
  /\ OpenAPIResources.didIssuer resources = didWebId getConfig
  /\ ServiceOffering.legalParticipantUrl offering = OpenAPIResources.participantUrl resources
  /\ OpenAPIResources.participantUrl resources = urlParticipant getConfig
  /\ OpenAPIResources.openAPIUrl resources = openAPISpec getConfig
  /\ (exists file,
         OpenAPIResources.virtResourceUrl resources = joinUrl (baseUrl getConfig) file
         /\ OpenAPIResources.virtResourceWritePath resources
            = path_join (webserverDir getConfig) file)
  /\ (exists file,
         OpenAPIResources.instVirtResourceUrl resources = joinUrl (baseUrl getConfig) file
         /\ OpenAPIResources.instVirtResourceWritePath resources
            = path_join (webserverDir getConfig) file).
Proof.
  unfold actionCredentials. execute; intros Hres Hoff.
  all: repeat (destruct Hoff as [Hoff|Hoff]; [try discriminate|]); try contradiction.
  all: repeat (destruct Hres as [Hres|Hres]; [try discriminate|]); try contradiction.
  all: injection Hoff as <-; injection Hres as <-; cbn.
  all: repeat split; eexists; split; reflexivity.
Qed.

End BuildMore.

Section Schedule.
Context {imports : Imports}.

(** X4: the builder calls of the build workflow and their arguments do
    not depend on the environment or on what earlier builders returned:
    one list of five steps, fixed by the imports, has the steps of every
    run as an initial part. *)
Theorem actionCredentials_schedule_fixed :
  exists schedule : list step,
    (forall (W : Type) (env : Env W) (w : W),
        steps (trace (run env actionCredentials w)) `prefix_of` schedule)
    /\ length schedule = 5.
Proof.
  eexists. split.
  - intros W env w. unfold actionCredentials.
    execute; [exists []; rewrite app_nil_r; reflexivity | eexists; reflexivity ..].
  - reflexivity.
Qed.

End Schedule.

(** ** Further properties of the present-and-sign workflow *)

Section PresentMore.
Context {imports : Imports} {W : Type} (env : Env W).

(** X6: a run of [actionVP] posts at most once and writes at most once,
    and it writes only after the endpoint has answered with success: in
    every run either nothing is written, or the one request was answered
    and the one write goes to the configured presentation path. *)
Theorem actionVP_writes_only_after_signature (w : W) :
  length (posts (trace (run env actionVP w))) <= 1
  /\ (writes (trace (run env actionVP w)) = []
      \/ exists res,
          post_answers (trace (run env actionVP w)) = [Ok res]
          /\ map fst (writes (trace (run env actionVP w)))
             = [pathVerifiablePresentation getConfig]).
Proof.
  unfold actionVP, readJson, signCredentials. execute.
  all: split; [cbn; lia|].
  all: first [left; reflexivity | right; eexists; split; reflexivity].
Qed.

(** X7: a read that throws, or a text that [JSON.parse] rejects, ends
    the run of [actionVP] on the spot, and the workflow throws that very
    error, not wrapped in another one. *)
Theorem actionVP_read_error_propagates (w : W)
    (pre : list entry) (ev : entry) (suf : list entry) (err : Exn) :
  trace (run env actionVP w) = pre ++ ev :: suf ->
  (read_result_of ev = Some (Thrown err)
   \/ exists text, read_result_of ev = Some (Ok text) /\ JSON_parse text = Thrown err) ->
  suf = [] /\ result (run env actionVP w) = Thrown err.
Proof.
  revert pre ev suf. unfold actionVP, readJson, signCredentials. execute.
  all: intros pre ev suf Ht Hev; locate Ht Hev.
  all: destruct Hev as [Hev|(text & Hev & Hparse)]; cbn in Hev; try discriminate Hev.
  all: injection Hev as Hev; subst; split; congruence.
Qed.

(** X8: [actionVP] calls no builder, and it logs at error level only
    in runs where the compliance request failed; a failed read is not
    logged by the workflow. *)
Theorem actionVP_never_builds (w : W) :
  steps (trace (run env actionVP w)) = []
  /\ (errors_logged (trace (run env actionVP w)) = []
      \/ exists err, post_answers (trace (run env actionVP w)) = [Thrown err]).
Proof.
  unfold actionVP, readJson, signCredentials. execute.
  all: split; [reflexivity|].
  all: first [left; reflexivity | right; eexists; reflexivity].
Qed.

(** X9: in a run of [actionVP] that does not get as far as the write,
    whatever the reason (a failed read, a text that does not parse, a
    failed request), a part of the world that reading, posting and
    logging preserve is left as it was. *)
Theorem actionVP_store_untouched_without_write {D : Type} (view : W -> D) (w : W) :
  preserved view env ->
  writes (trace (run env actionVP w)) = [] ->
  view (world (run env actionVP w)) = view w.
Proof.
  intros Hview Hwrites. apply preserved_run; [exact Hview|].
  revert Hwrites. unfold actionVP, readJson, signCredentials. execute.
  all: intros Hwrites; first [discriminate Hwrites | reflexivity].
Qed.

(** X10: the write is the last thing a run of [actionVP] does, and a
    run that reaches it returns exactly when the write succeeds: a
    [writeFile] that throws makes the workflow throw although the request
    was answered. *)
Theorem actionVP_write_is_last (w : W) :
  writes (trace (run env actionVP w)) = []
  \/ exists pre ev res,
      trace (run env actionVP w) = pre ++ [ev]
      /\ write_of ev <> None
      /\ post_answers pre = [Ok res]
      /\ is_thrown (result (run env actionVP w)) = failed ev.
Proof.
  unfold actionVP, readJson, signCredentials. execute.
  all: first [left; reflexivity | right].
  all: match goal with
       | |- exists pre ev res, ?t = _ /\ _ =>
           exists (removelast t), (List.last t (Logged info (str EmptyString)))
       end; cbn; eexists; repeat split; discriminate.
Qed.

End PresentMore.

(** ** The further properties on the concrete environment *)

Section ScenariosMore.
Import Scenario.

(** X2 at work: a rejected request leaves the disk as it was. *)
Lemma signCredentials_only_posts_and_logs_scenario :
  preserved disk env
  /\ reads (trace (run env (@signCredentials imports base) (built rejected))) = []
  /\ writes (trace (run env (@signCredentials imports base) (built rejected))) = []
  /\ disk (world (run env (@signCredentials imports base) (built rejected)))
     = disk (built rejected).
Proof.
  split; [exact scenario_preserved|].
  destruct (@signCredentials_only_posts_and_logs imports World env _ disk
              (built rejected) base scenario_preserved) as (Hr & Hw & _ & Hdisk).
  split; [exact Hr|]. split; [exact Hw | exact Hdisk].
Defined.

(** X5 at work: the two steps of the build on the empty disk. *)
Lemma build_steps_agree_scenario :
  In (StepResources resources) (steps (trace (build accepted)))
  /\ In (StepServiceOffering offering) (steps (trace (build accepted)))
  /\ ServiceOffering.didIssuer offering = OpenAPIResources.didIssuer resources
  /\ ServiceOffering.legalParticipantUrl offering
     = OpenAPIResources.participantUrl resources.
Proof.
  assert (In (StepResources resources) (steps (trace (build accepted)))) as Hres
    by (vm_compute; tauto).
  assert (In (StepServiceOffering offering) (steps (trace (build accepted)))) as Hoff
    by (vm_compute; tauto).
  split; [exact Hres|]. split; [exact Hoff|].
  destruct (@build_steps_agree imports World env (fresh accepted) resources offering
              Hres Hoff) as (Hissuer & _ & Hparticipant & _).
  split; [exact Hissuer | exact Hparticipant].
Defined.

(** X7 at work: the Service Offering file is missing. *)
Lemma actionVP_read_error_propagates_scenario :
  trace (present_without_offering accepted)
  = [ Called (FsReadFile "htdocs/participant.json") (Ok (stringify vcParticipant));
      Called (FsReadFile "htdocs/lrn.json") (Ok (stringify vcLRN));
      Called (FsReadFile "htdocs/tc.json") (Ok (stringify vcTC)) ]
    ++ Called (FsReadFile "htdocs/so.json") (Thrown (enoent "htdocs/so.json")) :: []
  /\ result (present_without_offering accepted) = Thrown (enoent "htdocs/so.json").
Proof.
  assert (trace (present_without_offering accepted)
          = [ Called (FsReadFile "htdocs/participant.json") (Ok (stringify vcParticipant));
              Called (FsReadFile "htdocs/lrn.json") (Ok (stringify vcLRN));
              Called (FsReadFile "htdocs/tc.json") (Ok (stringify vcTC)) ]
            ++ Called (FsReadFile "htdocs/so.json") (Thrown (enoent "htdocs/so.json")) :: [])
    as Htrace by (vm_compute; reflexivity).
  split; [exact Htrace|].
  exact (proj2 (@actionVP_read_error_propagates imports World env _ _ _ _
                  (enoent "htdocs/so.json") Htrace (or_introl eq_refl))).
Defined.

(** X9 at work: with the Service Offering file missing nothing is
    written, and the disk is as the workflow found it. *)
Lemma actionVP_store_untouched_without_write_scenario :
  writes (trace (present_without_offering accepted)) = []
  /\ disk (world (present_without_offering accepted))
     = delete (pathServiceOffering config) (disk (built accepted)).
Proof.
  assert (writes (trace (present_without_offering accepted)) = []) as Hwrites
    by (vm_compute; reflexivity).
  split; [exact Hwrites|].
  exact (@actionVP_store_untouched_without_write imports World env _ disk _
           scenario_preserved Hwrites).
Defined.

End ScenariosMore.
